(** * simple_online_shop: the cart logic of [simple_shop.py]

    A shallow embedding of the backend functions of [src/simple_shop.py]
    (lines 7-115: [PRODUCTS], [show_products], [find_cart_item],
    [add_to_cart], [view_cart], [remove_from_cart], [calculate_total],
    [checkout]) and the properties the specification states about them.

    Modelling choices.
    - Python's [int] is unbounded: product ids, quantities and prices are [Z].
    - [PRODUCTS] is a Python [dict]; iteration follows insertion order, so
      it is an association list with unique keys and a lookup function.
    - The cart is a Python list of dicts with the two keys ["product_id"]
      and ["quantity"]: a list of records.  The functions mutate the list
      they are given; here they take the cart and return the new cart next
      to their Python return value.
    - [find_cart_item] returns a reference to a dict that sits in the list.
      Every dict of the cart is created by [add_to_cart] (line 55) and is
      stored once, so a reference is the position of the dict in the list;
      [find_cart_item] returns the position together with the dict found
      there.
    - [list.remove(x)] removes the first element equal ([==]) to [x] and
      raises [ValueError] when there is none: [list_remove] returns an
      [option], and so does [remove_from_cart], the only caller. *)

From stdpp Require Import base numbers list strings.
From Stdlib Require Import Sorted.

Local Open Scope Z_scope.

(** ** Backend data *)

Record ProductInfo := { name : string; price : Z }.

(** [d.get(k)] on a Python dict with integer keys, its entries in
    insertion order. *)
Fixpoint dict_get (d : list (Z * ProductInfo)) (k : Z) : option ProductInfo :=
  match d with
  | [] => None
  | (k', v) :: d' => if decide (k' = k) then Some v else dict_get d' k
  end.

(** [k in d] *)
Definition dict_contains (d : list (Z * ProductInfo)) (k : Z) : bool :=
  match dict_get d k with Some _ => true | None => false end.

(** Lines 7-13. *)
Definition PRODUCTS : list (Z * ProductInfo) :=
  [ (1, {| name := "Laptop";     price := 120000 |});
    (2, {| name := "Smartphone"; price := 60000 |});
    (3, {| name := "Headphones"; price := 5000 |});
    (4, {| name := "Keyboard";   price := 2500 |});
    (5, {| name := "Mouse";      price := 1500 |}) ].

(** The cart: a list of [{"product_id": int, "quantity": int}] (line 16). *)
Record CartLine := { product_id : Z; quantity : Z }.

#[global] Instance CartLine_eq_dec : EqDecision CartLine.
Proof. solve_decision. Defined.

(** The [(success, error)] pairs the functions return, under the names
    the specification gives to them. *)
Definition Result : Type := bool * option string.

Definition Success : Result := (true, None).
Definition InvalidProduct : Result := (false, Some "Invalid Product ID"%string).
Definition InvalidQuantity : Result := (false, Some "Quantity must be at least 1"%string).
Definition ItemNotFound : Result := (false, Some "Item not found in cart"%string).

(** ** Functions (logic) *)

(** Lines 25-30: the loop appends one tuple per dict entry. *)
Definition show_products_of (d : list (Z * ProductInfo)) : list (Z * string * Z) :=
  fold_left (λ data entry, data ++ [(entry.1, name entry.2, price entry.2)]) d [].

Definition show_products : list (Z * string * Z) := show_products_of PRODUCTS.

(** Lines 33-38: the first dict whose ["product_id"] is [pid], with its
    position in the list; [None] when the loop falls through. *)
Definition find_cart_item (cart_list : list CartLine) (pid : Z) : option (nat * CartLine) :=
  list_find (λ item, product_id item = pid) cart_list.

(** [existing_item["quantity"] += quantity] (line 53). *)
Definition add_quantity (qty : Z) (item : CartLine) : CartLine :=
  {| product_id := product_id item; quantity := quantity item + qty |}.

(** Lines 41-57. *)
Definition add_to_cart (cart_list : list CartLine) (pid qty : Z) : Result * list CartLine :=
  if negb (dict_contains PRODUCTS pid) then (InvalidProduct, cart_list)
  else if decide (qty ≤ 0) then (InvalidQuantity, cart_list)
  else match find_cart_item cart_list pid with
       | Some (i, _) => (Success, alter (add_quantity qty) i cart_list)
       | None => (Success, cart_list ++ [ {| product_id := pid; quantity := qty |} ])
       end.

(** The dicts [view_cart] builds (lines 69-75). *)
Record LineDetail := {
  detail_product_id : Z;
  detail_name : string;
  detail_price : Z;
  detail_quantity : Z;
  detail_subtotal : Z
}.

Definition line_detail (item : CartLine) (prod : ProductInfo) : LineDetail :=
  {| detail_product_id := product_id item;
     detail_name := name prod;
     detail_price := price prod;
     detail_quantity := quantity item;
     detail_subtotal := price prod * quantity item |}.

(** Lines 60-77. *)
Definition view_cart (cart_list : list CartLine) : list LineDetail :=
  fold_left
    (λ items item,
       match dict_get PRODUCTS (product_id item) with
       | Some prod => items ++ [line_detail item prod]
       | None => items
       end)
    cart_list [].

(** [list.remove(x)]: drops the first element equal to [x]; [None] is the
    [ValueError] Python raises when no element is equal to [x]. *)
Fixpoint list_remove (x : CartLine) (l : list CartLine) : option (list CartLine) :=
  match l with
  | [] => None
  | y :: l' => if decide (y = x) then Some l' else (y ::.) <$> list_remove x l'
  end.

(** [existing_item["quantity"] -= quantity] (line 94). *)
Definition sub_quantity (qty : Z) (item : CartLine) : CartLine :=
  {| product_id := product_id item; quantity := quantity item - qty |}.

(** Lines 80-96.  [None]: a [ValueError] left [cart_list.remove]. *)
Definition remove_from_cart (cart_list : list CartLine) (pid qty : Z)
  : option (Result * list CartLine) :=
  match find_cart_item cart_list pid with
  | None => Some (ItemNotFound, cart_list)
  | Some (i, existing_item) =>
      if decide (qty ≤ 0) then Some (InvalidQuantity, cart_list)
      else if decide (qty >= quantity existing_item)
           then cart' ← list_remove existing_item cart_list; Some (Success, cart')
           else Some (Success, alter (sub_quantity qty) i cart_list)
  end.

(** Lines 99-108. *)
Definition calculate_total (cart_list : list CartLine) : Z :=
  fold_left
    (λ total item,
       match dict_get PRODUCTS (product_id item) with
       | Some prod => total + price prod * quantity item
       | None => total
       end)
    cart_list 0.

(** Lines 111-115: the total, and the cleared list. *)
Definition checkout (cart_list : list CartLine) : Z * list CartLine :=
  let total := calculate_total cart_list in
  (total, []).

(** ** Sessions: sequences of cart operations *)

Inductive Op :=
| AddToCart (pid qty : Z)
| RemoveFromCart (pid qty : Z)
| Checkout.

(** The cart after one operation.  An exception leaves the list as it was. *)
Definition run_op (cart_list : list CartLine) (op : Op) : list CartLine :=
  match op with
  | AddToCart pid qty => (add_to_cart cart_list pid qty).2
  | RemoveFromCart pid qty =>
      match remove_from_cart cart_list pid qty with
      | Some (_, cart') => cart'
      | None => cart_list
      end
  | Checkout => (checkout cart_list).2
  end.

(** The session starts with the empty list (lines 17-18). *)
Definition run_ops (ops : list Op) : list CartLine := fold_left run_op ops [].

Definition reachable (cart_list : list CartLine) : Prop :=
  ∃ ops, run_ops ops = cart_list.

(** ** Predicates of the specification *)

Definition in_catalog (pid : Z) : Prop := dict_contains PRODUCTS pid = true.

(** No line of the cart is for [pid]. *)
Definition no_line (pid : Z) (cart_list : list CartLine) : Prop :=
  Forall (λ item, product_id item ≠ pid) cart_list.

(** The invariant of the data model. *)
Definition line_ok (item : CartLine) : Prop :=
  in_catalog (product_id item) ∧ 0 < quantity item.

Definition cart_inv (cart_list : list CartLine) : Prop := Forall line_ok cart_list.

(** At most one line per product id. *)
Definition unique_ids (cart_list : list CartLine) : Prop :=
  NoDup (product_id <$> cart_list).

#[global] Instance in_catalog_dec pid : Decision (in_catalog pid).
Proof. unfold in_catalog. apply _. Defined.

#[global] Instance line_ok_dec item : Decision (line_ok item).
Proof. unfold line_ok. apply _. Defined.

#[global] Instance cart_inv_dec cart_list : Decision (cart_inv cart_list).
Proof. unfold cart_inv. apply _. Defined.

#[global] Instance no_line_dec pid cart_list : Decision (no_line pid cart_list).
Proof. unfold no_line. apply _. Defined.

(** What the specification says [calculateTotal] and [viewCart] compute:
    a sum, and a sequence, over the lines that resolve in the catalog. *)
Definition resolved_subtotal (item : CartLine) : option Z :=
  prod ← dict_get PRODUCTS (product_id item); Some (price prod * quantity item).

Definition resolved_detail (item : CartLine) : option LineDetail :=
  prod ← dict_get PRODUCTS (product_id item);
  Some {| detail_product_id := product_id item;
          detail_name := name prod;
          detail_price := price prod;
          detail_quantity := quantity item;
          detail_subtotal := price prod * quantity item |}.

Fixpoint sum_Z (l : list Z) : Z :=
  match l with
  | [] => 0
  | x :: l' => x + sum_Z l'
  end.

Definition spec_total (cart_list : list CartLine) : Z :=
  sum_Z (omap resolved_subtotal cart_list).

Definition spec_view (cart_list : list CartLine) : list LineDetail :=
  omap resolved_detail cart_list.

(** The session that adds the lines of a cart one after the other. *)
Definition ops_of_cart (cart_list : list CartLine) : list Op :=
  (λ item, AddToCart (product_id item) (quantity item)) <$> cart_list.

(** What one line adds to the total: nothing when its id does not resolve. *)
Definition line_total (item : CartLine) : Z := default 0 (resolved_subtotal item).

(** ** The lookup helper and the two list updates *)

Section cart_lists.
Implicit Types (cart_list l : list CartLine) (x item : CartLine) (pid qty : Z).

Lemma find_cart_item_None cart_list pid :
  find_cart_item cart_list pid = None ↔ no_line pid cart_list.
Proof. unfold find_cart_item, no_line. apply list_find_None. Qed.

(** The loop stops at the first line for [pid]. *)
Lemma find_cart_item_middle l1 x l2 pid :
  no_line pid l1 → product_id x = pid →
  find_cart_item (l1 ++ x :: l2) pid = Some (length l1, x).
Proof.
  intros Hl1 Hx. unfold find_cart_item.
  rewrite list_find_app_r by (by apply list_find_None).
  simpl. rewrite decide_True by done. done.
Qed.

(** What it returns is a line for [pid] with no line for [pid] before it. *)
Lemma find_cart_item_Some cart_list pid i x :
  find_cart_item cart_list pid = Some (i, x) →
  ∃ l1 l2, cart_list = l1 ++ x :: l2 ∧ i = length l1 ∧
           product_id x = pid ∧ no_line pid l1.
Proof.
  unfold find_cart_item. intros (Hi & Hx & Hbefore)%list_find_Some.
  exists (take i cart_list), (drop (S i) cart_list).
  assert (i < length cart_list)%nat as Hlt by eauto using lookup_lt_Some.
  split_and!; [by rewrite take_drop_middle | by rewrite length_take; lia | done |].
  apply Forall_lookup. intros j y Hj.
  assert (j < i)%nat.
  { apply lookup_lt_Some in Hj. rewrite length_take in Hj. lia. }
  rewrite lookup_take_lt in Hj by done. eauto.
Qed.

(** A cart either has no line for [pid], or splits at its first one. *)
Lemma cart_cases cart_list pid :
  no_line pid cart_list ∨
  ∃ l1 x l2, cart_list = l1 ++ x :: l2 ∧ product_id x = pid ∧ no_line pid l1.
Proof.
  destruct (find_cart_item cart_list pid) as [[i x]|] eqn:Hfind.
  - right. apply find_cart_item_Some in Hfind as (l1 & l2 & ? & ? & ? & ?). eauto 6.
  - left. by apply find_cart_item_None.
Qed.

Lemma no_line_exists pid cart_list :
  no_line pid cart_list ↔ ¬ ∃ x, x ∈ cart_list ∧ product_id x = pid.
Proof.
  unfold no_line. rewrite Forall_forall. split.
  - intros Hall (x & Hx & Hpid). by apply (Hall x).
  - intros Hnone x Hx Hpid. apply Hnone. by exists x.
Qed.

Lemma alter_middle (f : CartLine → CartLine) l1 x l2 :
  alter f (length l1) (l1 ++ x :: l2) = l1 ++ f x :: l2.
Proof. by rewrite <- (Nat.add_0_r (length l1)), alter_app_r. Qed.

(** [list.remove] finds the line that [find_cart_item] found: an equal
    dict has the same product id, and none before it has. *)
Lemma list_remove_middle l1 x l2 :
  no_line (product_id x) l1 → list_remove x (l1 ++ x :: l2) = Some (l1 ++ l2).
Proof.
  induction l1 as [|y l1 IH]; simpl; intros Hl1.
  - by rewrite decide_True.
  - apply Forall_cons in Hl1 as [Hy Hl1].
    rewrite decide_False by congruence. by rewrite IH.
Qed.
End cart_lists.

Lemma in_catalog_get pid : in_catalog pid ↔ is_Some (dict_get PRODUCTS pid).
Proof.
  unfold in_catalog, dict_contains.
  destruct (dict_get PRODUCTS pid) as [prod|].
  - split; [by eexists | done].
  - split; [done | by intros [? ?]].
Qed.

Lemma not_in_catalog pid : ¬ in_catalog pid ↔ dict_contains PRODUCTS pid = false.
Proof. unfold in_catalog. by destruct (dict_contains PRODUCTS pid). Qed.

(** The ids of the catalog. *)
Lemma in_catalog_ids pid : in_catalog pid ↔ 1 ≤ pid ≤ 5.
Proof.
  unfold in_catalog, dict_contains, PRODUCTS. simpl.
  repeat case_decide; subst; split; intros; try done; try lia.
Qed.

(** From here on the catalog is looked up, not unfolded. *)
#[global] Arguments dict_get : simpl never.

(** ** [add_to_cart] *)

Section add_to_cart.
Implicit Types (cart_list l : list CartLine) (x : CartLine) (pid qty : Z).

Lemma add_to_cart_invalid_product cart_list pid qty :
  ¬ in_catalog pid → add_to_cart cart_list pid qty = (InvalidProduct, cart_list).
Proof. intros H%not_in_catalog. unfold add_to_cart. by rewrite H. Qed.

Lemma add_to_cart_invalid_quantity cart_list pid qty :
  in_catalog pid → qty ≤ 0 →
  add_to_cart cart_list pid qty = (InvalidQuantity, cart_list).
Proof.
  unfold in_catalog, add_to_cart. intros -> ?. simpl. by rewrite decide_True.
Qed.

Lemma add_to_cart_valid cart_list pid qty :
  in_catalog pid → 0 < qty →
  add_to_cart cart_list pid qty =
    match find_cart_item cart_list pid with
    | Some (i, _) => (Success, alter (add_quantity qty) i cart_list)
    | None => (Success, cart_list ++ [ {| product_id := pid; quantity := qty |} ])
    end.
Proof.
  unfold in_catalog, add_to_cart. intros -> ?. simpl. by rewrite decide_False by lia.
Qed.

Lemma add_to_cart_existing l1 x l2 pid qty :
  in_catalog pid → 0 < qty → product_id x = pid → no_line pid l1 →
  add_to_cart (l1 ++ x :: l2) pid qty =
    (Success, l1 ++ {| product_id := pid; quantity := quantity x + qty |} :: l2).
Proof.
  intros Hpid Hqty Hx Hl1. rewrite add_to_cart_valid by done.
  rewrite find_cart_item_middle by done. rewrite alter_middle.
  unfold add_quantity. by rewrite Hx.
Qed.

Lemma add_to_cart_new cart_list pid qty :
  in_catalog pid → 0 < qty → no_line pid cart_list →
  add_to_cart cart_list pid qty =
    (Success, cart_list ++ [ {| product_id := pid; quantity := qty |} ]).
Proof.
  intros Hpid Hqty Hno. rewrite add_to_cart_valid by done.
  apply find_cart_item_None in Hno. by rewrite Hno.
Qed.

(** A failed call returns the list it was given. *)
Lemma add_to_cart_failed cart_list pid qty :
  (add_to_cart cart_list pid qty).1.1 = false →
  (add_to_cart cart_list pid qty).2 = cart_list.
Proof.
  unfold add_to_cart. destruct (negb _); [done|]. case_decide; [done|].
  by destruct (find_cart_item cart_list pid) as [[??]|].
Qed.
End add_to_cart.

(** C1.  [add_to_cart] makes its checks in the order of the source: an id
    that is not in the catalog gives [InvalidProduct]; for a catalog id a
    quantity [<= 0] gives [InvalidQuantity] (and every call with such a
    quantity fails).  Otherwise, when the cart splits as [l1 ++ x :: l2]
    at its first line [x] for the id, the result is the same list with
    the quantity of [x] raised by the amount, and when the cart has no
    line for the id the line [{pid, qty}] is appended at the end; one of
    the two cases always applies. *)
Theorem add_to_cart_spec (cart_list : list CartLine) (pid qty : Z) :
  (¬ in_catalog pid →
     add_to_cart cart_list pid qty = (InvalidProduct, cart_list)) ∧
  (in_catalog pid → qty ≤ 0 →
     add_to_cart cart_list pid qty = (InvalidQuantity, cart_list)) ∧
  (qty ≤ 0 → (add_to_cart cart_list pid qty).1.1 = false) ∧
  (in_catalog pid → 0 < qty →
     (∀ l1 x l2, cart_list = l1 ++ x :: l2 → product_id x = pid → no_line pid l1 →
        add_to_cart cart_list pid qty =
          (Success, l1 ++ {| product_id := pid; quantity := quantity x + qty |} :: l2)) ∧
     (no_line pid cart_list →
        add_to_cart cart_list pid qty =
          (Success, cart_list ++ [ {| product_id := pid; quantity := qty |} ])) ∧
     (no_line pid cart_list ∨
      ∃ l1 x l2, cart_list = l1 ++ x :: l2 ∧ product_id x = pid ∧ no_line pid l1)).
Proof.
  split_and!.
  - apply add_to_cart_invalid_product.
  - apply add_to_cart_invalid_quantity.
  - intros Hqty. destruct (decide (in_catalog pid)).
    + by rewrite add_to_cart_invalid_quantity.
    + by rewrite add_to_cart_invalid_product.
  - intros Hpid Hqty. split_and!.
    + intros l1 x l2 -> Hx Hl1. by apply add_to_cart_existing.
    + by apply add_to_cart_new.
    + apply cart_cases.
Qed.

Lemma add_to_cart_spec_witness :
  add_to_cart [ {| product_id := 3; quantity := 1 |};
                {| product_id := 1; quantity := 1 |};
                {| product_id := 2; quantity := 1 |} ] 1 4
  = (Success, [ {| product_id := 3; quantity := 1 |};
                {| product_id := 1; quantity := 5 |};
                {| product_id := 2; quantity := 1 |} ]).
Proof.
  refine (proj1 (proj2 (proj2 (proj2 (add_to_cart_spec _ 1 4))) _ _)
            [ {| product_id := 3; quantity := 1 |} ]
            {| product_id := 1; quantity := 1 |}
            [ {| product_id := 2; quantity := 1 |} ] _ _ _).
  - reflexivity.
  - lia.
  - reflexivity.
  - reflexivity.
  - unfold no_line. repeat constructor. simpl. lia.
Defined.

(** C6.  A call of [add_to_cart] with a quantity [<= 0] or with an id
    that is not in the catalog fails and returns the cart it was given;
    the error is [InvalidProduct] for an id that is not in the catalog
    (that check comes first) and [InvalidQuantity] for a catalog id with
    a quantity [<= 0]. *)
Theorem add_to_cart_failure_unchanged (cart_list : list CartLine) (pid qty : Z) :
  (qty ≤ 0 ∨ ¬ in_catalog pid →
     (add_to_cart cart_list pid qty).1.1 = false ∧
     (add_to_cart cart_list pid qty).2 = cart_list) ∧
  (¬ in_catalog pid →
     add_to_cart cart_list pid qty = (InvalidProduct, cart_list)) ∧
  (in_catalog pid → qty ≤ 0 →
     add_to_cart cart_list pid qty = (InvalidQuantity, cart_list)).
Proof.
  split_and!.
  - intros Hbad. destruct (decide (in_catalog pid)) as [Hpid|Hpid].
    + destruct Hbad as [Hqty|?]; [|done].
      by rewrite add_to_cart_invalid_quantity.
    + by rewrite add_to_cart_invalid_product.
  - apply add_to_cart_invalid_product.
  - apply add_to_cart_invalid_quantity.
Qed.

Lemma add_to_cart_failure_unchanged_witness :
  add_to_cart [ {| product_id := 2; quantity := 7 |} ] 2 0
  = (InvalidQuantity, [ {| product_id := 2; quantity := 7 |} ]) ∧
  add_to_cart [ {| product_id := 2; quantity := 7 |} ] 6 1
  = (InvalidProduct, [ {| product_id := 2; quantity := 7 |} ]).
Proof.
  split.
  - refine (proj2 (proj2 (add_to_cart_failure_unchanged _ 2 0)) _ _).
    + reflexivity.
    + lia.
  - refine (proj1 (proj2 (add_to_cart_failure_unchanged _ 6 1)) _).
    vm_compute. discriminate.
Defined.

(** ** [remove_from_cart] *)

Section remove_from_cart.
Implicit Types (cart_list l : list CartLine) (x : CartLine) (pid qty : Z).

Lemma remove_from_cart_not_found cart_list pid qty :
  no_line pid cart_list →
  remove_from_cart cart_list pid qty = Some (ItemNotFound, cart_list).
Proof.
  intros Hno%find_cart_item_None. unfold remove_from_cart. by rewrite Hno.
Qed.

Lemma remove_from_cart_invalid_quantity l1 x l2 pid qty :
  product_id x = pid → no_line pid l1 → qty ≤ 0 →
  remove_from_cart (l1 ++ x :: l2) pid qty = Some (InvalidQuantity, l1 ++ x :: l2).
Proof.
  intros Hx Hl1 Hqty. unfold remove_from_cart.
  rewrite find_cart_item_middle by done. by rewrite decide_True.
Qed.

Lemma remove_from_cart_delete l1 x l2 pid qty :
  product_id x = pid → no_line pid l1 → 0 < qty → quantity x ≤ qty →
  remove_from_cart (l1 ++ x :: l2) pid qty = Some (Success, l1 ++ l2).
Proof.
  intros Hx Hl1 Hqty Hge. unfold remove_from_cart.
  rewrite find_cart_item_middle by done.
  rewrite decide_False by lia. rewrite decide_True by lia.
  rewrite list_remove_middle by (by rewrite Hx). done.
Qed.

Lemma remove_from_cart_decrement l1 x l2 pid qty :
  product_id x = pid → no_line pid l1 → 0 < qty → qty < quantity x →
  remove_from_cart (l1 ++ x :: l2) pid qty =
    Some (Success, l1 ++ {| product_id := pid; quantity := quantity x - qty |} :: l2).
Proof.
  intros Hx Hl1 Hqty Hlt. unfold remove_from_cart.
  rewrite find_cart_item_middle by done.
  rewrite decide_False by lia. rewrite decide_False by lia.
  rewrite alter_middle. unfold sub_quantity. by rewrite Hx.
Qed.

(** [cart_list.remove] never raises here, so the function returns. *)
Lemma remove_from_cart_returns cart_list pid qty :
  ∃ r cart', remove_from_cart cart_list pid qty = Some (r, cart').
Proof.
  destruct (cart_cases cart_list pid) as [Hno|(l1 & x & l2 & -> & Hx & Hl1)].
  - rewrite remove_from_cart_not_found by done. eauto.
  - destruct (decide (qty ≤ 0)).
    + rewrite remove_from_cart_invalid_quantity by done. eauto.
    + destruct (decide (quantity x ≤ qty)).
      * rewrite remove_from_cart_delete by (done || lia). eauto.
      * rewrite remove_from_cart_decrement by (done || lia). eauto.
Qed.
End remove_from_cart.

(** C2.  [remove_from_cart] returns (no exception leaves it).  With no
    line for the id in the cart it fails with [ItemNotFound].  When the
    cart splits as [l1 ++ x :: l2] at its first line [x] for the id: a
    quantity [<= 0] fails with [InvalidQuantity]; a positive quantity
    [>=] that of [x] deletes the line and gives [l1 ++ l2]; a smaller
    positive quantity lowers the quantity of [x] by the amount, in place.
    One of the two shapes of cart always applies. *)
Theorem remove_from_cart_spec (cart_list : list CartLine) (pid qty : Z) :
  (no_line pid cart_list →
     remove_from_cart cart_list pid qty = Some (ItemNotFound, cart_list)) ∧
  (∀ l1 x l2, cart_list = l1 ++ x :: l2 → product_id x = pid → no_line pid l1 →
     (qty ≤ 0 →
        remove_from_cart cart_list pid qty = Some (InvalidQuantity, cart_list)) ∧
     (0 < qty → quantity x ≤ qty →
        remove_from_cart cart_list pid qty = Some (Success, l1 ++ l2)) ∧
     (0 < qty → qty < quantity x →
        remove_from_cart cart_list pid qty =
          Some (Success,
                l1 ++ {| product_id := pid; quantity := quantity x - qty |} :: l2))) ∧
  (no_line pid cart_list ∨
   ∃ l1 x l2, cart_list = l1 ++ x :: l2 ∧ product_id x = pid ∧ no_line pid l1) ∧
  (qty ≤ 0 →
     ∃ r, remove_from_cart cart_list pid qty = Some (r, cart_list) ∧ r.1 = false).
Proof.
  split_and!.
  - apply remove_from_cart_not_found.
  - intros l1 x l2 -> Hx Hl1. split_and!; intros.
    + by apply remove_from_cart_invalid_quantity.
    + by apply remove_from_cart_delete.
    + by apply remove_from_cart_decrement.
  - apply cart_cases.
  - intros Hqty.
    destruct (cart_cases cart_list pid) as [Hno|(l1 & x & l2 & -> & Hx & Hl1)].
    + rewrite remove_from_cart_not_found by done. by eexists.
    + rewrite remove_from_cart_invalid_quantity by done. by eexists.
Qed.

Lemma remove_from_cart_spec_witness :
  remove_from_cart [ {| product_id := 3; quantity := 1 |};
                     {| product_id := 1; quantity := 5 |};
                     {| product_id := 2; quantity := 1 |} ] 1 2
  = Some (Success, [ {| product_id := 3; quantity := 1 |};
                     {| product_id := 1; quantity := 3 |};
                     {| product_id := 2; quantity := 1 |} ]) ∧
  remove_from_cart [ {| product_id := 3; quantity := 1 |};
                     {| product_id := 1; quantity := 5 |};
                     {| product_id := 2; quantity := 1 |} ] 1 5
  = Some (Success, [ {| product_id := 3; quantity := 1 |};
                     {| product_id := 2; quantity := 1 |} ]) ∧
  remove_from_cart [ {| product_id := 3; quantity := 1 |} ] 4 1
  = Some (ItemNotFound, [ {| product_id := 3; quantity := 1 |} ]).
Proof.
  split_and!.
  - refine (proj2 (proj2 (proj1 (proj2 (remove_from_cart_spec _ 1 2))
              [ {| product_id := 3; quantity := 1 |} ]
              {| product_id := 1; quantity := 5 |}
              [ {| product_id := 2; quantity := 1 |} ] _ _ _)) _ _).
    + reflexivity.
    + reflexivity.
    + unfold no_line. repeat constructor. simpl. lia.
    + lia.
    + simpl. lia.
  - refine (proj1 (proj2 (proj1 (proj2 (remove_from_cart_spec _ 1 5))
              [ {| product_id := 3; quantity := 1 |} ]
              {| product_id := 1; quantity := 5 |}
              [ {| product_id := 2; quantity := 1 |} ] _ _ _)) _ _).
    + reflexivity.
    + reflexivity.
    + unfold no_line. repeat constructor. simpl. lia.
    + lia.
    + simpl. lia.
  - refine (proj1 (remove_from_cart_spec _ 4 1) _).
    unfold no_line. repeat constructor. simpl. lia.
Defined.

(** C10.  [remove_from_cart] always returns, and whenever its result is a
    failure the error is [ItemNotFound] or [InvalidQuantity] and the cart
    it returns is the cart it was given.  With no line for the id the
    result is [ItemNotFound] whatever the quantity, also one [<= 0]: the
    lookup comes before the quantity check. *)
Theorem remove_from_cart_failure_unchanged (cart_list : list CartLine) (pid qty : Z) :
  (∃ r cart', remove_from_cart cart_list pid qty = Some (r, cart')) ∧
  (∀ r cart', remove_from_cart cart_list pid qty = Some (r, cart') → r.1 = false →
     cart' = cart_list ∧ (r = ItemNotFound ∨ r = InvalidQuantity)) ∧
  (no_line pid cart_list →
     remove_from_cart cart_list pid qty = Some (ItemNotFound, cart_list)) ∧
  (no_line pid cart_list → qty ≤ 0 →
     remove_from_cart cart_list pid qty = Some (ItemNotFound, cart_list)).
Proof.
  split_and!.
  - apply remove_from_cart_returns.
  - intros r cart'.
    destruct (cart_cases cart_list pid) as [Hno|(l1 & x & l2 & -> & Hx & Hl1)].
    + rewrite remove_from_cart_not_found by done. intros [= <- <-] _. auto.
    + destruct (decide (qty ≤ 0)).
      * rewrite remove_from_cart_invalid_quantity by done. intros [= <- <-] _. auto.
      * destruct (decide (quantity x ≤ qty)).
        -- rewrite remove_from_cart_delete by (done || lia). by intros [= <- <-] ?.
        -- rewrite remove_from_cart_decrement by (done || lia). by intros [= <- <-] ?.
  - apply remove_from_cart_not_found.
  - intros Hno _. by apply remove_from_cart_not_found.
Qed.

Lemma remove_from_cart_failure_unchanged_witness :
  remove_from_cart [ {| product_id := 3; quantity := 1 |} ] 4 (-2)
  = Some (ItemNotFound, [ {| product_id := 3; quantity := 1 |} ]).
Proof.
  refine (proj2 (proj2 (proj2 (remove_from_cart_failure_unchanged _ 4 (-2)))) _ _).
  - unfold no_line. repeat constructor. simpl. lia.
  - lia.
Defined.

(** ** Add, then remove *)

(** C7.  On a cart of the data model (every line has a catalog id and a
    quantity [> 0]), for a catalog id and a quantity [> 0]: [add_to_cart]
    succeeds, and [remove_from_cart] of the same id and quantity on the
    cart it leaves succeeds and gives back the cart from before the add. *)
Theorem add_then_remove (cart_list : list CartLine) (pid qty : Z) :
  cart_inv cart_list → in_catalog pid → 0 < qty →
  ∃ cart', add_to_cart cart_list pid qty = (Success, cart') ∧
           remove_from_cart cart' pid qty = Some (Success, cart_list).
Proof.
  intros Hinv Hpid Hqty.
  destruct (cart_cases cart_list pid) as [Hno|(l1 & x & l2 & -> & Hx & Hl1)].
  - eexists. split; [by apply add_to_cart_new|].
    rewrite (remove_from_cart_delete cart_list _ [] pid qty); simpl; try done; try lia.
    by rewrite app_nil_r.
  - eexists. split; [by apply add_to_cart_existing|].
    assert (0 < quantity x) as Hpos.
    { apply Forall_app in Hinv as [_ [[_ ?] _]%Forall_cons]. done. }
    rewrite (remove_from_cart_decrement l1 _ l2 pid qty); simpl; try done; try lia.
    destruct x as [p q]. simpl in *. subst p.
    by replace (q + qty - qty) with q by lia.
Qed.

Lemma add_then_remove_witness :
  ∃ cart', add_to_cart [ {| product_id := 3; quantity := 1 |};
                         {| product_id := 1; quantity := 5 |} ] 1 2
           = (Success, cart') ∧
           remove_from_cart cart' 1 2
           = Some (Success, [ {| product_id := 3; quantity := 1 |};
                              {| product_id := 1; quantity := 5 |} ]).
Proof.
  apply (add_then_remove [ {| product_id := 3; quantity := 1 |};
                           {| product_id := 1; quantity := 5 |} ] 1 2).
  - unfold cart_inv, line_ok. repeat constructor; simpl; lia.
  - reflexivity.
  - lia.
Defined.

(** ** The invariant of the cart *)

Section invariant.
Implicit Types (cart_list l : list CartLine) (x : CartLine) (pid qty : Z).

Lemma add_to_cart_inv cart_list pid qty :
  cart_inv cart_list → cart_inv (add_to_cart cart_list pid qty).2.
Proof.
  intros Hinv. destruct (decide (in_catalog pid)) as [Hpid|Hpid].
  2: { by rewrite add_to_cart_invalid_product. }
  destruct (decide (qty ≤ 0)) as [Hqty|Hqty].
  { by rewrite add_to_cart_invalid_quantity. }
  destruct (cart_cases cart_list pid) as [Hno|(l1 & x & l2 & -> & Hx & Hl1)].
  - rewrite add_to_cart_new by (done || lia). simpl.
    apply Forall_app. split; [done|].
    apply Forall_singleton. split; simpl; [done | lia].
  - rewrite add_to_cart_existing by (done || lia). simpl.
    apply Forall_app in Hinv as [Hinv1 [[_ Hq] Hinv2]%Forall_cons].
    apply Forall_app. split; [done|]. apply Forall_cons. split; [|done].
    split; simpl; [done | lia].
Qed.

Lemma remove_from_cart_inv cart_list pid qty r cart' :
  cart_inv cart_list → remove_from_cart cart_list pid qty = Some (r, cart') →
  cart_inv cart'.
Proof.
  intros Hinv.
  destruct (cart_cases cart_list pid) as [Hno|(l1 & x & l2 & -> & Hx & Hl1)].
  { rewrite remove_from_cart_not_found by done. by intros [= <- <-]. }
  destruct (decide (qty ≤ 0)) as [Hqty|Hqty].
  { rewrite remove_from_cart_invalid_quantity by done. by intros [= <- <-]. }
  pose proof Hinv as [Hinv1 [[Hin _] Hinv2]%Forall_cons]%Forall_app.
  destruct (decide (quantity x ≤ qty)).
  - rewrite remove_from_cart_delete by (done || lia). intros [= <- <-].
    by apply Forall_app.
  - rewrite remove_from_cart_decrement by (done || lia). intros [= <- <-].
    apply Forall_app. split; [done|]. apply Forall_cons. split; [|done].
    split; simpl; [by rewrite <- Hx | lia].
Qed.

Lemma checkout_inv cart_list : cart_inv (checkout cart_list).2.
Proof. simpl. apply Forall_nil_2. Qed.

Lemma run_op_inv cart_list op :
  cart_inv cart_list → cart_inv (run_op cart_list op).
Proof.
  intros Hinv. destruct op as [pid qty|pid qty|]; simpl.
  - by apply add_to_cart_inv.
  - destruct (remove_from_cart cart_list pid qty) as [[r cart']|] eqn:Hrem; [|done].
    by eapply remove_from_cart_inv.
  - apply Forall_nil_2.
Qed.

Lemma fold_run_op_inv ops cart_list :
  cart_inv cart_list → cart_inv (fold_left run_op ops cart_list).
Proof.
  revert cart_list. induction ops as [|op ops IH]; intros cart_list Hinv; simpl.
  - done.
  - by apply IH, run_op_inv.
Qed.
End invariant.

(** C3.  Every cart reached from the empty cart by a sequence of
    [add_to_cart], [remove_from_cart] and [checkout] calls has only lines
    with a catalog id and a quantity [> 0], and each of the three
    operations keeps that property of the cart it is given. *)
Theorem cart_invariant :
  (∀ cart_list, reachable cart_list → cart_inv cart_list) ∧
  (∀ cart_list pid qty,
     cart_inv cart_list → cart_inv (add_to_cart cart_list pid qty).2) ∧
  (∀ cart_list pid qty,
     cart_inv cart_list →
     ∃ r cart', remove_from_cart cart_list pid qty = Some (r, cart') ∧ cart_inv cart') ∧
  (∀ cart_list, cart_inv cart_list → cart_inv (checkout cart_list).2).
Proof.
  split_and!.
  - intros cart_list [ops <-]. apply fold_run_op_inv, Forall_nil_2.
  - apply add_to_cart_inv.
  - intros cart_list pid qty Hinv.
    destruct (remove_from_cart_returns cart_list pid qty) as (r & cart' & Hrem).
    exists r, cart'. split; [done|]. by eapply remove_from_cart_inv.
  - intros cart_list _. apply checkout_inv.
Qed.

Lemma cart_invariant_witness :
  cart_inv [ {| product_id := 3; quantity := 1 |};
             {| product_id := 1; quantity := 3 |} ].
Proof.
  apply (proj1 cart_invariant).
  exists [ AddToCart 3 1; AddToCart 1 1; AddToCart 2 1; AddToCart 1 4;
           RemoveFromCart 2 6; AddToCart 7 1; RemoveFromCart 1 2 ].
  reflexivity.
Defined.

(** ** [calculate_total], [view_cart] and [checkout] *)

Section totals.
Implicit Types (cart_list l : list CartLine) (item : CartLine).

Lemma omap_cons_unfold {A B} (f : A → option B) (x : A) (l : list A) :
  omap f (x :: l) = match f x with Some y => y :: omap f l | None => omap f l end.
Proof. reflexivity. Qed.

(** The loop of [calculate_total], started from any [total]. *)
Lemma calculate_total_loop cart_list (total : Z) :
  fold_left
    (λ total item,
       match dict_get PRODUCTS (product_id item) with
       | Some prod => total + price prod * quantity item
       | None => total
       end)
    cart_list total
  = total + sum_Z (omap resolved_subtotal cart_list).
Proof.
  revert total. induction cart_list as [|item cart_list IH]; intros total.
  - simpl. lia.
  - rewrite omap_cons_unfold. cbn [fold_left]. rewrite IH.
    unfold resolved_subtotal at 2.
    destruct (dict_get PRODUCTS (product_id item)); simpl; lia.
Qed.

(** The loop of [view_cart], started from any [items]. *)
Lemma view_cart_loop cart_list (items : list LineDetail) :
  fold_left
    (λ items item,
       match dict_get PRODUCTS (product_id item) with
       | Some prod => items ++ [line_detail item prod]
       | None => items
       end)
    cart_list items
  = items ++ omap resolved_detail cart_list.
Proof.
  revert items. induction cart_list as [|item cart_list IH]; intros items.
  - simpl. by rewrite app_nil_r.
  - rewrite omap_cons_unfold. cbn [fold_left]. rewrite IH.
    unfold resolved_detail at 2.
    destruct (dict_get PRODUCTS (product_id item)); simpl; [|done].
    by rewrite <- app_assoc.
Qed.

(** On a cart whose lines all resolve nothing is skipped. *)
Lemma omap_resolved_subtotal_inv cart_list :
  Forall (λ item, in_catalog (product_id item)) cart_list →
  ∃ prices : list Z,
    length prices = length cart_list ∧
    (∀ (i : nat) item, cart_list !! i = Some item →
       ∃ prod, dict_get PRODUCTS (product_id item) = Some prod ∧
               prices !! i = Some (price prod * quantity item)) ∧
    omap resolved_subtotal cart_list = prices.
Proof.
  induction 1 as [|item cart_list Hitem _ (prices & Hlen & Hnth & Heq)].
  - exists []. split_and!; [done| |done]. intros i item. by rewrite lookup_nil.
  - apply in_catalog_get in Hitem as [prod Hprod].
    exists (price prod * quantity item :: prices). split_and!.
    + simpl. by rewrite Hlen.
    + intros [|i] item'; simpl.
      * intros [= <-]. eauto.
      * apply Hnth.
    + rewrite omap_cons_unfold. unfold resolved_subtotal at 1.
      rewrite Hprod. simpl. by rewrite Heq.
Qed.
End totals.

(** C5.  [calculate_total] returns the sum of [price * quantity] over the
    lines of the cart whose id resolves in the catalog (the other lines
    add nothing), [0] for the empty cart; on a cart whose lines all
    resolve that is one summand [price * quantity] for each line. *)
Theorem calculate_total_spec (cart_list : list CartLine) :
  calculate_total cart_list = spec_total cart_list ∧
  calculate_total [] = 0 ∧
  (Forall (λ item, in_catalog (product_id item)) cart_list →
     ∃ prices : list Z,
       calculate_total cart_list = sum_Z prices ∧
       length prices = length cart_list ∧
       ∀ (i : nat) item, cart_list !! i = Some item →
         ∃ prod, dict_get PRODUCTS (product_id item) = Some prod ∧
                 prices !! i = Some (price prod * quantity item)).
Proof.
  assert (calculate_total cart_list = spec_total cart_list) as Htotal.
  { unfold calculate_total, spec_total. rewrite calculate_total_loop. lia. }
  split_and!; [done | done |].
  intros (prices & Hlen & Hnth & Heq)%omap_resolved_subtotal_inv.
  exists prices. split_and!; [|done..].
  rewrite Htotal. unfold spec_total. by rewrite Heq.
Qed.

Lemma calculate_total_spec_witness :
  ∃ prices : list Z,
    calculate_total [ {| product_id := 1; quantity := 2 |};
                      {| product_id := 3; quantity := 1 |} ] = sum_Z prices ∧
    length prices = 2%nat ∧
    ∀ (i : nat) item,
      [ {| product_id := 1; quantity := 2 |};
        {| product_id := 3; quantity := 1 |} ] !! i = Some item →
      ∃ prod, dict_get PRODUCTS (product_id item) = Some prod ∧
              prices !! i = Some (price prod * quantity item).
Proof.
  apply (proj2 (proj2 (calculate_total_spec
           [ {| product_id := 1; quantity := 2 |};
             {| product_id := 3; quantity := 1 |} ]))).
  repeat constructor.
Defined.

(** C4.  [checkout] returns the value of [calculate_total] on the cart it
    is given, together with the empty cart; it has no failure result.  On
    the empty cart it returns [0], so a second checkout right after a
    first returns [0].  With the catalog prices [120000] for id [1] and
    [5000] for id [3], the cart [[{1,2}; {3,1}]] gives [245000]. *)
Theorem checkout_spec (cart_list : list CartLine) :
  checkout cart_list = (calculate_total cart_list, []) ∧
  checkout [] = (0, []) ∧
  checkout (checkout cart_list).2 = (0, []) ∧
  price <$> dict_get PRODUCTS 1 = Some 120000 ∧
  price <$> dict_get PRODUCTS 3 = Some 5000 ∧
  checkout [ {| product_id := 1; quantity := 2 |};
             {| product_id := 3; quantity := 1 |} ] = (245000, []).
Proof. split_and!; reflexivity. Qed.

(** C8.  [view_cart] is the sequence, in cart order, of one detail per
    line whose id resolves in the catalog: it maps the empty cart to the
    empty sequence; a first line that resolves to [prod] contributes
    [{product_id, name prod, price prod, quantity, price prod * quantity}]
    in front of the details of the rest; a first line that does not
    resolve contributes nothing.  On a cart whose lines all resolve there
    is one detail per line, at the position of the line. *)
Theorem view_cart_spec (cart_list : list CartLine) :
  view_cart cart_list = spec_view cart_list ∧
  view_cart [] = [] ∧
  (∀ item rest prod,
     dict_get PRODUCTS (product_id item) = Some prod →
     view_cart (item :: rest) =
       {| detail_product_id := product_id item;
          detail_name := name prod;
          detail_price := price prod;
          detail_quantity := quantity item;
          detail_subtotal := price prod * quantity item |} :: view_cart rest) ∧
  (∀ item rest,
     dict_get PRODUCTS (product_id item) = None →
     view_cart (item :: rest) = view_cart rest) ∧
  (Forall (λ item, in_catalog (product_id item)) cart_list →
     length (view_cart cart_list) = length cart_list ∧
     ∀ (i : nat) item, cart_list !! i = Some item →
       ∃ prod, dict_get PRODUCTS (product_id item) = Some prod ∧
               view_cart cart_list !! i =
                 Some {| detail_product_id := product_id item;
                         detail_name := name prod;
                         detail_price := price prod;
                         detail_quantity := quantity item;
                         detail_subtotal := price prod * quantity item |}).
Proof.
  assert (∀ l, view_cart l = spec_view l) as Hview.
  { intros l. unfold view_cart, spec_view. by rewrite view_cart_loop. }
  split_and!.
  - apply Hview.
  - reflexivity.
  - intros item rest prod Hprod. rewrite !Hview. unfold spec_view.
    rewrite omap_cons_unfold. unfold resolved_detail at 1. by rewrite Hprod.
  - intros item rest Hprod. rewrite !Hview. unfold spec_view.
    rewrite omap_cons_unfold. unfold resolved_detail at 1. by rewrite Hprod.
  - rewrite Hview. unfold spec_view.
    induction 1 as [|item cart_list Hitem _ [IHlen IHnth]].
    + split; [done|]. intros i item. by rewrite lookup_nil.
    + apply in_catalog_get in Hitem as [prod Hprod].
      assert (resolved_detail item = Some (line_detail item prod)) as Hdetail.
      { unfold resolved_detail. by rewrite Hprod. }
      rewrite omap_cons_unfold, Hdetail.
      split; [simpl; by rewrite IHlen|].
      intros [|i] item'; simpl.
      * intros [= <-]. exists prod. by split.
      * apply IHnth.
Qed.

Lemma view_cart_spec_witness :
  view_cart [ {| product_id := 3; quantity := 2 |};
              {| product_id := 9; quantity := 1 |} ]
  = {| detail_product_id := 3;
       detail_name := "Headphones";
       detail_price := 5000;
       detail_quantity := 2;
       detail_subtotal := 5000 * 2 |}
    :: view_cart [ {| product_id := 9; quantity := 1 |} ] ∧
  view_cart [ {| product_id := 9; quantity := 1 |} ] = view_cart [].
Proof.
  split.
  - refine (proj1 (proj2 (proj2 (view_cart_spec [])))
              {| product_id := 3; quantity := 2 |} _
              {| name := "Headphones"; price := 5000 |} _).
    reflexivity.
  - refine (proj1 (proj2 (proj2 (proj2 (view_cart_spec []))))
              {| product_id := 9; quantity := 1 |} [] _).
    reflexivity.
Defined.

(** ** [show_products] *)

Lemma show_products_of_loop (d : list (Z * ProductInfo)) (data : list (Z * string * Z)) :
  fold_left (λ data entry, data ++ [(entry.1, name entry.2, price entry.2)]) d data
  = data ++ ((λ entry, (entry.1, name entry.2, price entry.2)) <$> d).
Proof.
  revert data. induction d as [|entry d IH]; intros data; simpl.
  - by rewrite app_nil_r.
  - by rewrite IH, <- app_assoc.
Qed.

(** C9.  [show_products] has one tuple [(id, name, price)] per entry of
    [PRODUCTS], in the order of the entries: a tuple is listed exactly
    when the catalog maps its id to its name and price, no id is listed
    twice, and the ids are strictly ascending.  The function reads
    nothing but the constant [PRODUCTS], so every call gives this list. *)
Theorem show_products_spec :
  show_products = (λ entry, (entry.1, name entry.2, price entry.2)) <$> PRODUCTS ∧
  (∀ pid n p,
     (pid, n, p) ∈ show_products ↔
     dict_get PRODUCTS pid = Some {| name := n; price := p |}) ∧
  length show_products = length PRODUCTS ∧
  NoDup ((λ t, t.1.1) <$> show_products) ∧
  StronglySorted Z.lt ((λ t, t.1.1) <$> show_products).
Proof.
  split_and!.
  - unfold show_products, show_products_of. by rewrite show_products_of_loop.
  - intros pid n p. split.
    + intros Hin. unfold show_products, show_products_of in Hin. simpl in Hin.
      repeat match goal with
             | H : _ ∈ _ :: _ |- _ => apply elem_of_cons in H as [[= -> -> ->]|H]
             | H : _ ∈ [] |- _ => by apply elem_of_nil in H
             end; reflexivity.
    + unfold show_products, show_products_of, dict_get, PRODUCTS. simpl.
      repeat case_decide; intros [= <- <-]; subst pid;
        repeat first [apply list_elem_of_here | apply list_elem_of_further].
  - reflexivity.
  - unfold show_products, show_products_of. simpl.
    repeat (apply NoDup_cons_2;
            [rewrite ?not_elem_of_cons, elem_of_nil; split_and?; (lia || tauto)|]).
    apply NoDup_nil_2.
  - unfold show_products, show_products_of. simpl.
    repeat (apply SSorted_cons; [|repeat constructor; lia]). apply SSorted_nil.
Qed.

(** ** At most one line per product *)

Section unique_ids.
Implicit Types (cart_list l : list CartLine) (x : CartLine) (pid qty : Z).

Lemma ids_middle l1 x l2 (q : Z) :
  product_id <$> (l1 ++ {| product_id := product_id x; quantity := q |} :: l2)
  = product_id <$> (l1 ++ x :: l2).
Proof. by rewrite !fmap_app, !fmap_cons. Qed.

Lemma no_line_ids pid cart_list :
  no_line pid cart_list ↔ pid ∉ product_id <$> cart_list.
Proof.
  rewrite no_line_exists, list_elem_of_fmap. split.
  - intros Hnone (x & -> & Hx). apply Hnone. by exists x.
  - intros Hnone (x & Hx & <-). apply Hnone. by exists x.
Qed.

Lemma add_to_cart_unique cart_list pid qty :
  unique_ids cart_list → unique_ids (add_to_cart cart_list pid qty).2.
Proof.
  unfold unique_ids. intros Huniq.
  destruct (decide (in_catalog pid)) as [Hpid|Hpid].
  2: { by rewrite add_to_cart_invalid_product. }
  destruct (decide (qty ≤ 0)) as [Hqty|Hqty].
  { by rewrite add_to_cart_invalid_quantity. }
  destruct (cart_cases cart_list pid) as [Hno|(l1 & x & l2 & -> & Hx & Hl1)].
  - rewrite add_to_cart_new by (done || lia). simpl.
    rewrite fmap_app. apply NoDup_app. split_and!; [done| |].
    + intros p Hp [->|[]%elem_of_nil]%elem_of_cons. by apply no_line_ids in Hno.
    + apply NoDup_singleton.
  - rewrite add_to_cart_existing by (done || lia). simpl.
    rewrite <- Hx. by rewrite ids_middle.
Qed.

Lemma remove_from_cart_unique cart_list pid qty r cart' :
  unique_ids cart_list → remove_from_cart cart_list pid qty = Some (r, cart') →
  unique_ids cart'.
Proof.
  unfold unique_ids. intros Huniq.
  destruct (cart_cases cart_list pid) as [Hno|(l1 & x & l2 & -> & Hx & Hl1)].
  { rewrite remove_from_cart_not_found by done. by intros [= <- <-]. }
  destruct (decide (qty ≤ 0)) as [Hqty|Hqty].
  { rewrite remove_from_cart_invalid_quantity by done. by intros [= <- <-]. }
  destruct (decide (quantity x ≤ qty)).
  - rewrite remove_from_cart_delete by (done || lia). intros [= <- <-].
    rewrite <- Permutation_middle, fmap_cons in Huniq.
    by apply NoDup_cons in Huniq as [_ ?].
  - rewrite remove_from_cart_decrement by (done || lia). intros [= <- <-].
    rewrite <- Hx. by rewrite ids_middle.
Qed.

(** Every cart of a session has at most one line per product id. *)
Lemma reachable_unique_ids cart_list : reachable cart_list → unique_ids cart_list.
Proof.
  intros [ops <-]. unfold run_ops.
  assert (unique_ids []) as Hnil by apply NoDup_nil_2.
  revert Hnil. generalize (@nil CartLine).
  induction ops as [|op ops IH]; intros cart_list Huniq; simpl; [done|].
  apply IH. destruct op as [pid qty|pid qty|]; simpl.
  - by apply add_to_cart_unique.
  - destruct (remove_from_cart cart_list pid qty) as [[r cart']|] eqn:Hrem; [|done].
    by eapply remove_from_cart_unique.
  - apply NoDup_nil_2.
Qed.
End unique_ids.

(** ** The examples of the specification *)

(** A first add to the empty cart gives the one line [{p, q}]. *)
Lemma add_to_empty_cart (pid qty : Z) :
  in_catalog pid → 0 < qty →
  add_to_cart [] pid qty = (Success, [ {| product_id := pid; quantity := qty |} ]).
Proof. intros Hpid Hqty. rewrite add_to_cart_new; [done..|]. apply Forall_nil_2. Qed.

(** Adding [q1] then [q2] of one product gives the one line [{p, q1 + q2}]. *)
Lemma add_twice (pid q1 q2 : Z) :
  in_catalog pid → 0 < q1 → 0 < q2 →
  add_to_cart (add_to_cart [] pid q1).2 pid q2
  = (Success, [ {| product_id := pid; quantity := q1 + q2 |} ]).
Proof.
  intros Hpid Hq1 Hq2. rewrite add_to_empty_cart by done.
  apply (add_to_cart_existing [] {| product_id := pid; quantity := q1 |} [] pid q2);
    [done..|apply Forall_nil_2].
Qed.

(** Adding the products 3, 1, 2 and then product 1 again keeps the order
    3, 1, 2 in [view_cart]. *)
Example add_keeps_order :
  detail_product_id <$>
    view_cart (run_ops [ AddToCart 3 1; AddToCart 1 1; AddToCart 2 1; AddToCart 1 1 ])
  = [3; 1; 2].
Proof. reflexivity. Qed.

(** The round trip of [add_then_remove] relies on the invariant: on a list
    with a line of quantity [0], which no session produces, the add brings
    the line to the quantity that the remove then deletes. *)
Example add_then_remove_zero_line :
  ¬ cart_inv [ {| product_id := 1; quantity := 0 |} ] ∧
  add_to_cart [ {| product_id := 1; quantity := 0 |} ] 1 3
  = (Success, [ {| product_id := 1; quantity := 3 |} ]) ∧
  remove_from_cart [ {| product_id := 1; quantity := 3 |} ] 1 3 = Some (Success, []).
Proof.
  split_and!; [|reflexivity..].
  intros [[_ Hq] _]%Forall_cons. simpl in Hq. lia.
Qed.

(** * Further properties of the cart functions *)

(** Closes [unique_ids] and [no_line] goals on explicit lists. *)
Ltac explicit_ids :=
  unfold unique_ids, no_line; simpl;
  repeat first
    [ apply NoDup_nil_2
    | apply NoDup_cons_2;
      [rewrite ?not_elem_of_cons, elem_of_nil; split_and?; (lia || tauto)|]
    | apply Forall_nil_2
    | apply Forall_cons; split; [simpl; lia|] ].

(** ** [find_cart_item] *)

(** X1.  [find_cart_item] returns the first line of the list with the id
    it is asked for, and [None] exactly when no line has that id; in a
    list with one line per id it finds every line by its id. *)
Theorem find_cart_item_spec (cart_list : list CartLine) (pid : Z) :
  (∀ i x,
     find_cart_item cart_list pid = Some (i, x) ↔
     cart_list !! i = Some x ∧ product_id x = pid ∧
     ∀ j y, cart_list !! j = Some y → (j < i)%nat → product_id y ≠ pid) ∧
  (find_cart_item cart_list pid = None ↔ ∀ x, x ∈ cart_list → product_id x ≠ pid) ∧
  (unique_ids cart_list →
     ∀ x, x ∈ cart_list → product_id x = pid →
          ∃ i, find_cart_item cart_list pid = Some (i, x)).
Proof.
  split_and!.
  - intros i x. unfold find_cart_item.
    apply (list_find_Some (λ item, product_id item = pid)).
  - rewrite find_cart_item_None. unfold no_line. apply Forall_forall.
  - intros Huniq x Hx Hpid.
    destruct (cart_cases cart_list pid) as [Hno|(l1 & y & l2 & -> & Hy & Hl1)].
    { apply no_line_exists in Hno. destruct Hno. by exists x. }
    exists (length l1). rewrite find_cart_item_middle by done. do 2 f_equal.
    unfold unique_ids in Huniq. rewrite fmap_app, fmap_cons in Huniq.
    apply NoDup_app in Huniq as (_ & Hdisj & [Hnotin _]%NoDup_cons).
    apply elem_of_app in Hx as [Hx|[->|Hx]%elem_of_cons]; [|done|].
    + apply no_line_exists in Hl1. destruct Hl1. by exists x.
    + destruct Hnotin. apply list_elem_of_fmap. exists x. split; [congruence|done].
Qed.

Lemma find_cart_item_spec_witness :
  ∃ i, find_cart_item [ {| product_id := 3; quantity := 1 |};
                        {| product_id := 1; quantity := 5 |} ] 1
       = Some (i, {| product_id := 1; quantity := 5 |}).
Proof.
  refine (proj2 (proj2 (find_cart_item_spec _ 1)) _ _ _ _).
  - explicit_ids.
  - apply list_elem_of_further, list_elem_of_here.
  - reflexivity.
Defined.

(** ** Reachable carts *)

Lemma run_ops_snoc (ops : list Op) (op : Op) :
  run_ops (ops ++ [op]) = run_op (run_ops ops) op.
Proof. unfold run_ops. by rewrite fold_left_app. Qed.

(** Adding the lines of a well-formed cart one by one builds that cart. *)
Lemma run_ops_of_cart (cart_list : list CartLine) :
  cart_inv cart_list → unique_ids cart_list → run_ops (ops_of_cart cart_list) = cart_list.
Proof.
  induction cart_list as [|x l IH] using rev_ind; [done|].
  intros [Hinv [[Hpid Hqty] _]%Forall_cons]%Forall_app Huniq.
  unfold unique_ids in Huniq. rewrite fmap_app in Huniq.
  apply NoDup_app in Huniq as (Huniq & Hdisj & _).
  unfold ops_of_cart. rewrite fmap_app. simpl. rewrite run_ops_snoc.
  fold (ops_of_cart l). rewrite IH by done. simpl.
  rewrite add_to_cart_new; [by destruct x|done..|].
  apply no_line_ids. intros Hin. apply (Hdisj _ Hin). simpl. apply list_elem_of_here.
Qed.

Lemma in_catalog_keys (pid : Z) : in_catalog pid → pid ∈ PRODUCTS.*1.
Proof.
  intros Hpid%in_catalog_ids.
  assert (pid = 1 ∨ pid = 2 ∨ pid = 3 ∨ pid = 4 ∨ pid = 5) as Hcases by lia.
  simpl. destruct Hcases as [->|[->|[->|[->| ->]]]];
    repeat first [apply list_elem_of_here | apply list_elem_of_further].
Qed.

(** X2.  [add_to_cart] and [remove_from_cart] keep a list with at most
    one line per product id in that shape, whatever their arguments. *)
Theorem unique_ids_preserved (cart_list : list CartLine) (pid qty : Z) :
  unique_ids cart_list →
  unique_ids (add_to_cart cart_list pid qty).2 ∧
  ∃ r cart', remove_from_cart cart_list pid qty = Some (r, cart') ∧ unique_ids cart'.
Proof.
  intros Huniq. split; [by apply add_to_cart_unique|].
  destruct (remove_from_cart_returns cart_list pid qty) as (r & cart' & Hrem).
  exists r, cart'. split; [done|]. by eapply remove_from_cart_unique.
Qed.

Lemma unique_ids_preserved_witness :
  unique_ids (add_to_cart [ {| product_id := 3; quantity := 1 |} ] 3 2).2 ∧
  ∃ r cart', remove_from_cart [ {| product_id := 3; quantity := 1 |} ] 3 2
             = Some (r, cart') ∧ unique_ids cart'.
Proof.
  apply (unique_ids_preserved [ {| product_id := 3; quantity := 1 |} ] 3 2).
  explicit_ids.
Defined.

(** X3.  The carts a session can reach from the empty cart are exactly the
    lists in which every line has a catalog id and a quantity [> 0] and no
    two lines have the same id. *)
Theorem reachable_iff (cart_list : list CartLine) :
  reachable cart_list ↔ cart_inv cart_list ∧ unique_ids cart_list.
Proof.
  split.
  - intros Hreach. split; [|by apply reachable_unique_ids].
    destruct Hreach as [ops <-]. apply fold_run_op_inv, Forall_nil_2.
  - intros [Hinv Huniq]. exists (ops_of_cart cart_list). by apply run_ops_of_cart.
Qed.

(** X4.  A cart of a session never has more lines than the catalog has
    products. *)
Theorem reachable_length (cart_list : list CartLine) :
  reachable cart_list → (length cart_list ≤ length PRODUCTS)%nat.
Proof.
  intros Hreach. pose proof (reachable_unique_ids _ Hreach) as Huniq.
  assert (cart_inv cart_list) as Hinv.
  { destruct Hreach as [ops <-]. apply fold_run_op_inv, Forall_nil_2. }
  rewrite <- (length_fmap product_id cart_list), <- (length_fmap fst PRODUCTS).
  apply submseteq_length, NoDup_submseteq; [done|].
  intros pid (x & -> & Hx)%list_elem_of_fmap. apply in_catalog_keys.
  unfold cart_inv in Hinv. rewrite Forall_forall in Hinv. by apply Hinv.
Qed.

Lemma reachable_length_witness :
  (length [ {| product_id := 3; quantity := 1 |};
            {| product_id := 1; quantity := 3 |} ] ≤ length PRODUCTS)%nat.
Proof.
  apply reachable_length.
  exists [ AddToCart 3 1; AddToCart 1 3 ]. reflexivity.
Defined.

(** ** Totals *)

Section total_lemmas.
Implicit Types (cart_list l : list CartLine) (x item : CartLine) (pid qty : Z).

Lemma sum_Z_app (l1 l2 : list Z) : sum_Z (l1 ++ l2) = sum_Z l1 + sum_Z l2.
Proof. induction l1 as [|z l1 IH]; simpl; lia. Qed.

Lemma calculate_total_omap cart_list :
  calculate_total cart_list = sum_Z (omap resolved_subtotal cart_list).
Proof. unfold calculate_total. rewrite calculate_total_loop. lia. Qed.

Lemma calculate_total_app l1 l2 :
  calculate_total (l1 ++ l2) = calculate_total l1 + calculate_total l2.
Proof. by rewrite !calculate_total_omap, omap_app, sum_Z_app. Qed.

Lemma calculate_total_cons x l :
  calculate_total (x :: l) = line_total x + calculate_total l.
Proof.
  rewrite !calculate_total_omap, omap_cons_unfold. unfold line_total.
  by destruct (resolved_subtotal x).
Qed.

Lemma calculate_total_nil : calculate_total [] = 0.
Proof. reflexivity. Qed.

Lemma line_total_resolved x prod :
  dict_get PRODUCTS (product_id x) = Some prod → line_total x = price prod * quantity x.
Proof. intros Hprod. unfold line_total, resolved_subtotal. by rewrite Hprod. Qed.

Lemma catalog_price_positive pid prod :
  dict_get PRODUCTS pid = Some prod → 0 < price prod.
Proof.
  unfold dict_get, PRODUCTS. repeat case_decide; intros [= <-]; simpl; lia.
Qed.

Lemma resolved_detail_subtotal item :
  detail_subtotal <$> resolved_detail item = resolved_subtotal item.
Proof.
  unfold resolved_detail, resolved_subtotal.
  by destruct (dict_get PRODUCTS (product_id item)).
Qed.

Lemma view_cart_omap cart_list : view_cart cart_list = omap resolved_detail cart_list.
Proof. unfold view_cart. by rewrite view_cart_loop. Qed.
End total_lemmas.

(** X5.  The total of [calculate_total] is the sum of the subtotals of the
    rows that [view_cart] returns for the same cart. *)
Theorem calculate_total_view_cart (cart_list : list CartLine) :
  calculate_total cart_list = sum_Z (detail_subtotal <$> view_cart cart_list).
Proof.
  rewrite calculate_total_omap, view_cart_omap.
  induction cart_list as [|item cart_list IH]; [done|].
  rewrite !omap_cons_unfold, <- resolved_detail_subtotal.
  destruct (resolved_detail item); simpl; by rewrite IH.
Qed.

(** X6.  The total does not depend on the order of the lines, and the
    total of two lists put together is the sum of their totals. *)
Theorem calculate_total_order (l1 l2 : list CartLine) :
  (l1 ≡ₚ l2 → calculate_total l1 = calculate_total l2) ∧
  calculate_total (l1 ++ l2) = calculate_total l1 + calculate_total l2.
Proof.
  split; [|apply calculate_total_app].
  induction 1 as [|x l l' _ IH|x y l|l l' l'' _ IH1 _ IH2].
  - done.
  - by rewrite !calculate_total_cons, IH.
  - rewrite !calculate_total_cons. lia.
  - by rewrite IH1.
Qed.

Lemma calculate_total_order_witness :
  calculate_total [ {| product_id := 1; quantity := 2 |};
                    {| product_id := 3; quantity := 1 |} ]
  = calculate_total [ {| product_id := 3; quantity := 1 |};
                      {| product_id := 1; quantity := 2 |} ].
Proof.
  apply (proj1 (calculate_total_order _ _)). apply perm_swap.
Defined.

(** X7.  A successful [add_to_cart] of [qty] units of a product raises the
    total of the cart by [qty] times the catalog price of the product. *)
Theorem add_to_cart_total (cart_list : list CartLine) (pid qty : Z) (prod : ProductInfo) :
  dict_get PRODUCTS pid = Some prod → 0 < qty →
  (add_to_cart cart_list pid qty).1 = Success ∧
  calculate_total (add_to_cart cart_list pid qty).2
  = calculate_total cart_list + price prod * qty.
Proof.
  intros Hprod Hqty.
  assert (in_catalog pid) as Hpid by (apply in_catalog_get; eauto).
  destruct (cart_cases cart_list pid) as [Hno|(l1 & x & l2 & -> & Hx & Hl1)].
  - rewrite add_to_cart_new by done. split; [done|]. simpl.
    rewrite calculate_total_app, calculate_total_cons, calculate_total_nil.
    rewrite (line_total_resolved _ prod) by done. simpl. lia.
  - rewrite add_to_cart_existing by done. split; [done|]. simpl.
    rewrite !calculate_total_app, !calculate_total_cons.
    rewrite (line_total_resolved _ prod) by done.
    rewrite (line_total_resolved x prod) by (by rewrite Hx). simpl. lia.
Qed.

Lemma add_to_cart_total_witness :
  (add_to_cart [ {| product_id := 3; quantity := 1 |} ] 3 2).1 = Success ∧
  calculate_total (add_to_cart [ {| product_id := 3; quantity := 1 |} ] 3 2).2
  = calculate_total [ {| product_id := 3; quantity := 1 |} ] + 5000 * 2.
Proof.
  apply (add_to_cart_total _ 3 2 {| name := "Headphones"; price := 5000 |}).
  - reflexivity.
  - lia.
Defined.

(** X8.  A [remove_from_cart] with a positive quantity of a product whose
    first line in the cart is [x] succeeds and lowers the total by the
    catalog price times the quantity taken out, which is the smaller of
    the quantity asked for and the quantity of [x]. *)
Theorem remove_from_cart_total
    (cart_list : list CartLine) (pid qty : Z) (prod : ProductInfo) (i : nat) (x : CartLine) :
  dict_get PRODUCTS pid = Some prod → find_cart_item cart_list pid = Some (i, x) →
  0 < qty →
  ∃ cart', remove_from_cart cart_list pid qty = Some (Success, cart') ∧
           calculate_total cart'
           = calculate_total cart_list - price prod * Z.min qty (quantity x).
Proof.
  intros Hprod Hfind Hqty.
  destruct (find_cart_item_Some _ _ _ _ Hfind) as (l1 & l2 & -> & _ & Hx & Hl1).
  destruct (decide (quantity x ≤ qty)).
  - rewrite remove_from_cart_delete by done. eexists. split; [done|].
    rewrite !calculate_total_app, calculate_total_cons.
    rewrite (line_total_resolved x prod) by (by rewrite Hx).
    rewrite Z.min_r by done. lia.
  - rewrite remove_from_cart_decrement by (done || lia). eexists. split; [done|].
    rewrite !calculate_total_app, !calculate_total_cons.
    rewrite (line_total_resolved _ prod) by done.
    rewrite (line_total_resolved x prod) by (by rewrite Hx).
    rewrite Z.min_l by lia. simpl. lia.
Qed.

Lemma remove_from_cart_total_witness :
  ∃ cart', remove_from_cart [ {| product_id := 3; quantity := 4 |} ] 3 6
           = Some (Success, cart') ∧
           calculate_total cart'
           = calculate_total [ {| product_id := 3; quantity := 4 |} ]
             - 5000 * Z.min 6 4.
Proof.
  apply (remove_from_cart_total _ 3 6 {| name := "Headphones"; price := 5000 |}
           0%nat {| product_id := 3; quantity := 4 |}).
  - reflexivity.
  - reflexivity.
  - lia.
Defined.

(** X9.  On a cart whose lines all have a catalog id and a quantity [> 0]
    the total is never negative, and it is [0] only for the empty cart:
    the checkout of a cart with a line bills a positive amount. *)
Theorem calculate_total_positive (cart_list : list CartLine) :
  cart_inv cart_list →
  0 ≤ calculate_total cart_list ∧
  (calculate_total cart_list = 0 ↔ cart_list = []) ∧
  (cart_list ≠ [] → 0 < (checkout cart_list).1).
Proof.
  intros Hinv.
  assert (∀ l, cart_inv l → l ≠ [] → 0 < calculate_total l) as Hpos.
  { clear. induction l as [|x l IH]; [done|].
    intros [[[prod Hprod]%in_catalog_get Hqty] Hinv]%Forall_cons _.
    rewrite calculate_total_cons, (line_total_resolved x prod) by done.
    pose proof (catalog_price_positive _ _ Hprod).
    destruct l as [|y l]; [rewrite calculate_total_nil; nia|].
    assert (0 < calculate_total (y :: l)) by (by apply IH). nia. }
  destruct cart_list as [|x l].
  - split_and!; [done..|]. by intros [].
  - specialize (Hpos _ Hinv). split_and!.
    + apply Z.lt_le_incl. by apply Hpos.
    + split; [|done]. intros Hzero. assert (0 < calculate_total (x :: l)) by by apply Hpos.
      lia.
    + intros _. simpl. by apply Hpos.
Qed.

Lemma calculate_total_positive_witness :
  0 < (checkout [ {| product_id := 5; quantity := 2 |} ]).1.
Proof.
  refine (proj2 (proj2 (calculate_total_positive _ _)) _).
  - unfold cart_inv, line_ok. repeat constructor; simpl; lia.
  - discriminate.
Defined.

(** X10.  Every row of [view_cart] shows a line of the cart (its id and
    its quantity) with the name and the price under which [show_products]
    lists the product, and a subtotal that is the price times the
    quantity. *)
Theorem view_cart_rows (cart_list : list CartLine) (d : LineDetail) :
  d ∈ view_cart cart_list →
  (detail_product_id d, detail_name d, detail_price d) ∈ show_products ∧
  detail_subtotal d = detail_price d * detail_quantity d ∧
  {| product_id := detail_product_id d; quantity := detail_quantity d |} ∈ cart_list.
Proof.
  rewrite view_cart_omap. intros (item & Hitem & Hd)%list_elem_of_omap.
  unfold resolved_detail in Hd.
  destruct (dict_get PRODUCTS (product_id item)) as [prod|] eqn:Hprod; [|done].
  injection Hd as <-. simpl. split_and!; [|done|by destruct item].
  assert (show_products = (λ entry, (entry.1, name entry.2, price entry.2)) <$> PRODUCTS)
    as ->.
  { unfold show_products, show_products_of. by rewrite show_products_of_loop. }
  apply list_elem_of_fmap. exists (product_id item, prod). split; [done|].
  clear Hitem. revert Hprod. generalize (product_id item). intros pid.
  unfold dict_get, PRODUCTS.
  repeat case_decide; intros [= <-]; subst pid;
    repeat first [apply list_elem_of_here | apply list_elem_of_further].
Qed.

Lemma view_cart_rows_witness :
  (3, "Headphones"%string, 5000) ∈ show_products ∧
  5000 * 2 = 5000 * 2 ∧
  {| product_id := 3; quantity := 2 |} ∈ [ {| product_id := 3; quantity := 2 |} ].
Proof.
  apply (view_cart_rows [ {| product_id := 3; quantity := 2 |} ]
           {| detail_product_id := 3; detail_name := "Headphones";
              detail_price := 5000; detail_quantity := 2;
              detail_subtotal := 5000 * 2 |}).
  apply list_elem_of_here.
Defined.

(** ** Lookups after an update, and the lines of other products *)

Section lookups.
Implicit Types (cart_list l : list CartLine) (x y : CartLine) (pid qty : Z).

(** Replacing a line for another product moves no lookup. *)
Lemma find_cart_item_other_middle l1 x y l2 pid :
  product_id x ≠ pid → product_id y ≠ pid →
  find_cart_item (l1 ++ x :: l2) pid = find_cart_item (l1 ++ y :: l2) pid.
Proof.
  intros Hx Hy. unfold find_cart_item. induction l1 as [|z l1 IH]; simpl.
  - by rewrite !decide_False by done.
  - by rewrite IH.
Qed.

Lemma find_cart_item_other_snoc l x pid :
  product_id x ≠ pid → find_cart_item (l ++ [x]) pid = find_cart_item l pid.
Proof.
  intros Hx. unfold find_cart_item. induction l as [|z l IH]; simpl.
  - by rewrite decide_False by done.
  - by rewrite IH.
Qed.

(** Deleting a line for another product moves positions only. *)
Lemma find_cart_item_other_delete l1 x l2 pid :
  product_id x ≠ pid →
  snd <$> find_cart_item (l1 ++ x :: l2) pid = snd <$> find_cart_item (l1 ++ l2) pid.
Proof.
  intros Hx. unfold find_cart_item. induction l1 as [|z l1 IH]; simpl.
  - rewrite decide_False by done.
    by destruct (list_find (λ item, product_id item = pid) l2) as [[??]|].
  - case_decide; [done|].
    destruct (list_find (λ item, product_id item = pid) (l1 ++ x :: l2)) as [[??]|],
             (list_find (λ item, product_id item = pid) (l1 ++ l2)) as [[??]|];
      simpl in *; congruence.
Qed.

Lemma unique_ids_after l1 x l2 :
  unique_ids (l1 ++ x :: l2) → no_line (product_id x) l2.
Proof.
  unfold unique_ids. rewrite fmap_app, fmap_cons.
  intros (_ & _ & [Hnotin _]%NoDup_cons)%NoDup_app. by apply no_line_ids.
Qed.

Lemma filter_other_middle l1 x l2 pid :
  product_id x = pid →
  filter (λ item, product_id item ≠ pid) (l1 ++ x :: l2)
  = filter (λ item, product_id item ≠ pid) (l1 ++ l2).
Proof.
  intros Hx. rewrite !filter_app. f_equal. by rewrite filter_cons_False by naive_solver.
Qed.
End lookups.

(** X11.  [add_to_cart] and [remove_from_cart] leave the lines of every
    other product as they are, in their order, whether the call succeeds
    or fails. *)
Theorem other_lines_untouched (cart_list : list CartLine) (pid qty : Z) :
  filter (λ item, product_id item ≠ pid) (add_to_cart cart_list pid qty).2
  = filter (λ item, product_id item ≠ pid) cart_list ∧
  ∃ r cart', remove_from_cart cart_list pid qty = Some (r, cart') ∧
             filter (λ item, product_id item ≠ pid) cart'
             = filter (λ item, product_id item ≠ pid) cart_list.
Proof.
  split.
  - destruct (decide (in_catalog pid)) as [Hpid|Hpid].
    2: { by rewrite add_to_cart_invalid_product. }
    destruct (decide (qty ≤ 0)) as [Hqty|Hqty].
    { by rewrite add_to_cart_invalid_quantity. }
    destruct (cart_cases cart_list pid) as [Hno|(l1 & x & l2 & -> & Hx & Hl1)].
    + rewrite add_to_cart_new by (done || lia). simpl.
      rewrite filter_app, filter_cons_False by naive_solver. apply app_nil_r.
    + rewrite add_to_cart_existing by (done || lia). simpl.
      by rewrite !filter_other_middle.
  - destruct (cart_cases cart_list pid) as [Hno|(l1 & x & l2 & -> & Hx & Hl1)].
    { rewrite remove_from_cart_not_found by done. eauto. }
    destruct (decide (qty ≤ 0)) as [Hqty|Hqty].
    { rewrite remove_from_cart_invalid_quantity by done. eauto. }
    destruct (decide (quantity x ≤ qty)).
    + rewrite remove_from_cart_delete by (done || lia). do 2 eexists. split; [done|].
      by rewrite filter_other_middle.
    + rewrite remove_from_cart_decrement by (done || lia). do 2 eexists. split; [done|].
      by rewrite !filter_other_middle.
Qed.

(** X12.  After a successful [add_to_cart], [find_cart_item] finds for the
    product a line whose quantity is the one it had before plus the amount
    added, at the position it had before, or the new line at the end of
    the list; the lookup of any other product gives what it gave before. *)
Theorem find_after_add (cart_list : list CartLine) (pid qty : Z) :
  in_catalog pid → 0 < qty →
  find_cart_item (add_to_cart cart_list pid qty).2 pid
  = Some (match find_cart_item cart_list pid with
          | Some (i, x) => (i, {| product_id := pid; quantity := quantity x + qty |})
          | None => (length cart_list, {| product_id := pid; quantity := qty |})
          end) ∧
  ∀ pid', pid' ≠ pid →
    find_cart_item (add_to_cart cart_list pid qty).2 pid' = find_cart_item cart_list pid'.
Proof.
  intros Hpid Hqty.
  destruct (cart_cases cart_list pid) as [Hno|(l1 & x & l2 & -> & Hx & Hl1)].
  - rewrite add_to_cart_new by done. simpl. split.
    + rewrite find_cart_item_middle by done.
      apply find_cart_item_None in Hno. by rewrite Hno.
    + intros pid' Hne. by apply find_cart_item_other_snoc.
  - rewrite add_to_cart_existing by done. simpl. split.
    + by rewrite !find_cart_item_middle.
    + intros pid' Hne. apply find_cart_item_other_middle; simpl; congruence.
Qed.

Lemma find_after_add_witness :
  find_cart_item (add_to_cart [ {| product_id := 3; quantity := 1 |};
                                {| product_id := 1; quantity := 5 |} ] 1 2).2 1
  = Some (1%nat, {| product_id := 1; quantity := 5 + 2 |}).
Proof.
  refine (proj1 (find_after_add [ {| product_id := 3; quantity := 1 |};
                                  {| product_id := 1; quantity := 5 |} ] 1 2 _ _)).
  - reflexivity.
  - lia.
Defined.

(** X13.  In a cart with one line per product, a successful
    [remove_from_cart] leaves no line for the product when the quantity
    asked for reaches that of the line (a second removal then fails with
    [ItemNotFound]), and otherwise leaves the line at its position with
    the quantity lowered; for any other product [find_cart_item] returns
    the line it returned before. *)
Theorem find_after_remove
    (cart_list : list CartLine) (pid qty : Z) (i : nat) (x : CartLine) :
  unique_ids cart_list → find_cart_item cart_list pid = Some (i, x) → 0 < qty →
  ∃ cart',
    remove_from_cart cart_list pid qty = Some (Success, cart') ∧
    find_cart_item cart' pid
    = (if decide (quantity x ≤ qty) then None
       else Some (i, {| product_id := pid; quantity := quantity x - qty |})) ∧
    (quantity x ≤ qty →
       remove_from_cart cart' pid qty = Some (ItemNotFound, cart')) ∧
    ∀ pid', pid' ≠ pid →
      snd <$> find_cart_item cart' pid' = snd <$> find_cart_item cart_list pid'.
Proof.
  intros Huniq Hfind Hqty.
  destruct (find_cart_item_Some _ _ _ _ Hfind) as (l1 & l2 & -> & -> & Hx & Hl1).
  pose proof (unique_ids_after _ _ _ Huniq) as Hl2. rewrite Hx in Hl2.
  destruct (decide (quantity x ≤ qty)) as [Hge|Hlt].
  - rewrite remove_from_cart_delete by done. eexists. split; [done|].
    assert (no_line pid (l1 ++ l2)) as Hno by (by apply Forall_app).
    split_and!.
    + by apply find_cart_item_None.
    + intros _. by apply remove_from_cart_not_found.
    + intros pid' Hne. symmetry. apply find_cart_item_other_delete. congruence.
  - rewrite remove_from_cart_decrement by (done || lia). eexists. split; [done|].
    split_and!.
    + by rewrite find_cart_item_middle.
    + intros ?. lia.
    + intros pid' Hne. f_equal.
      apply find_cart_item_other_middle; simpl; congruence.
Qed.

Lemma find_after_remove_witness :
  ∃ cart',
    remove_from_cart [ {| product_id := 3; quantity := 1 |};
                       {| product_id := 1; quantity := 5 |} ] 1 5
    = Some (Success, cart') ∧
    find_cart_item cart' 1 = None ∧
    (5 ≤ 5 → remove_from_cart cart' 1 5 = Some (ItemNotFound, cart')) ∧
    ∀ pid', pid' ≠ 1 →
      snd <$> find_cart_item cart' pid'
      = snd <$> find_cart_item [ {| product_id := 3; quantity := 1 |};
                                 {| product_id := 1; quantity := 5 |} ] pid'.
Proof.
  apply (find_after_remove [ {| product_id := 3; quantity := 1 |};
                             {| product_id := 1; quantity := 5 |} ] 1 5
           1%nat {| product_id := 1; quantity := 5 |}).
  - explicit_ids.
  - reflexivity.
  - lia.
Defined.

(** ** How the operations compose *)

(** X14.  Two successful [add_to_cart] calls for one product, of [q1] and
    then [q2] units, give the result and the cart of one call of
    [q1 + q2] units. *)
Theorem add_to_cart_twice (cart_list : list CartLine) (pid q1 q2 : Z) :
  in_catalog pid → 0 < q1 → 0 < q2 →
  add_to_cart (add_to_cart cart_list pid q1).2 pid q2
  = add_to_cart cart_list pid (q1 + q2).
Proof.
  intros Hpid Hq1 Hq2.
  destruct (cart_cases cart_list pid) as [Hno|(l1 & x & l2 & -> & Hx & Hl1)].
  - rewrite (add_to_cart_new _ _ q1), (add_to_cart_new _ _ (q1 + q2)) by (done || lia).
    simpl. by rewrite add_to_cart_existing.
  - rewrite (add_to_cart_existing _ _ _ _ q1) by done.
    rewrite (add_to_cart_existing _ _ _ _ (q1 + q2)) by (done || lia). simpl.
    rewrite add_to_cart_existing by done. simpl. by rewrite Z.add_assoc.
Qed.

Lemma add_to_cart_twice_witness :
  add_to_cart (add_to_cart [ {| product_id := 3; quantity := 1 |} ] 2 4).2 2 3
  = add_to_cart [ {| product_id := 3; quantity := 1 |} ] 2 (4 + 3).
Proof.
  apply (add_to_cart_twice [ {| product_id := 3; quantity := 1 |} ] 2 4 3).
  - reflexivity.
  - lia.
  - lia.
Defined.

(** X15.  A [remove_from_cart] of [q1] units that leaves the line in the
    cart, followed by one of [q2] units, gives the result and the cart of
    one removal of [q1 + q2] units. *)
Theorem remove_from_cart_twice
    (cart_list : list CartLine) (pid q1 q2 : Z) (i : nat) (x : CartLine) :
  find_cart_item cart_list pid = Some (i, x) → 0 < q1 → 0 < q2 → q1 < quantity x →
  ∃ cart', remove_from_cart cart_list pid q1 = Some (Success, cart') ∧
           remove_from_cart cart' pid q2 = remove_from_cart cart_list pid (q1 + q2).
Proof.
  intros Hfind Hq1 Hq2 Hlt.
  destruct (find_cart_item_Some _ _ _ _ Hfind) as (l1 & l2 & -> & _ & Hx & Hl1).
  rewrite (remove_from_cart_decrement _ _ _ _ q1) by done. eexists. split; [done|].
  destruct (decide (quantity x ≤ q1 + q2)).
  - rewrite (remove_from_cart_delete _ x) by (done || lia).
    by rewrite remove_from_cart_delete by (done || simpl; lia).
  - rewrite (remove_from_cart_decrement _ x) by (done || lia).
    rewrite remove_from_cart_decrement by (done || simpl; lia). simpl.
    by replace (quantity x - q1 - q2) with (quantity x - (q1 + q2)) by lia.
Qed.

Lemma remove_from_cart_twice_witness :
  ∃ cart', remove_from_cart [ {| product_id := 3; quantity := 9 |} ] 3 2
           = Some (Success, cart') ∧
           remove_from_cart cart' 3 4
           = remove_from_cart [ {| product_id := 3; quantity := 9 |} ] 3 (2 + 4).
Proof.
  apply (remove_from_cart_twice [ {| product_id := 3; quantity := 9 |} ] 3 2 4
           0%nat {| product_id := 3; quantity := 9 |}).
  - reflexivity.
  - lia.
  - lia.
  - simpl. lia.
Defined.

(** X16.  Taking units of a catalog product out and adding the same
    number back restores the cart when the removal left the line in
    place.  When the removal deleted the line of a cart with one line per
    product, the add puts a line with the added quantity at the end of
    the list, not at the old position. *)
Theorem remove_then_add
    (cart_list : list CartLine) (pid qty : Z) (i : nat) (x : CartLine) :
  find_cart_item cart_list pid = Some (i, x) → in_catalog pid → 0 < qty →
  ∃ cart',
    remove_from_cart cart_list pid qty = Some (Success, cart') ∧
    (qty < quantity x → add_to_cart cart' pid qty = (Success, cart_list)) ∧
    (quantity x ≤ qty → unique_ids cart_list →
       cart' = take i cart_list ++ drop (S i) cart_list ∧
       add_to_cart cart' pid qty
       = (Success, cart' ++ [ {| product_id := pid; quantity := qty |} ])).
Proof.
  intros Hfind Hpid Hqty.
  destruct (find_cart_item_Some _ _ _ _ Hfind) as (l1 & l2 & -> & -> & Hx & Hl1).
  destruct (decide (quantity x ≤ qty)) as [Hge|Hlt].
  - rewrite remove_from_cart_delete by done. eexists. split; [done|].
    split; [intros ?; lia|]. intros _ Huniq.
    pose proof (unique_ids_after _ _ _ Huniq) as Hl2. rewrite Hx in Hl2.
    split.
    + rewrite take_app_length. f_equal. symmetry.
      rewrite (cons_middle x l1 l2), app_assoc. apply drop_app_length'.
      rewrite length_app. simpl. lia.
    + apply add_to_cart_new; [done..|]. by apply Forall_app.
  - rewrite remove_from_cart_decrement by (done || lia). eexists. split; [done|].
    split; [|intros ?; lia]. intros _.
    rewrite add_to_cart_existing by done. simpl.
    destruct x as [p q]. simpl in *. subst p.
    by replace (q - qty + qty) with q by lia.
Qed.

Lemma remove_then_add_witness :
  ∃ cart',
    remove_from_cart [ {| product_id := 1; quantity := 5 |};
                       {| product_id := 3; quantity := 1 |} ] 1 5
    = Some (Success, cart') ∧
    (5 < 5 → add_to_cart cart' 1 5
             = (Success, [ {| product_id := 1; quantity := 5 |};
                           {| product_id := 3; quantity := 1 |} ])) ∧
    (5 ≤ 5 → unique_ids [ {| product_id := 1; quantity := 5 |};
                          {| product_id := 3; quantity := 1 |} ] →
       cart' = [ {| product_id := 3; quantity := 1 |} ] ∧
       add_to_cart cart' 1 5
       = (Success, cart' ++ [ {| product_id := 1; quantity := 5 |} ])).
Proof.
  apply (remove_then_add [ {| product_id := 1; quantity := 5 |};
                           {| product_id := 3; quantity := 1 |} ] 1 5
           0%nat {| product_id := 1; quantity := 5 |}).
  - reflexivity.
  - reflexivity.
  - lia.
Defined.

(** ** When the calls succeed *)

(** X17.  [add_to_cart] succeeds exactly for a product id from 1 to 5 and
    a quantity of at least 1, whatever the cart holds, and its result is
    one of success, [InvalidProduct] and [InvalidQuantity].
    [remove_from_cart] succeeds exactly when the cart has a line for the
    id and the quantity is at least 1. *)
Theorem success_conditions (cart_list : list CartLine) (pid qty : Z) :
  ((add_to_cart cart_list pid qty).1 = Success ↔ 1 ≤ pid ≤ 5 ∧ 1 ≤ qty) ∧
  ((add_to_cart cart_list pid qty).1 = Success ∨
   (add_to_cart cart_list pid qty).1 = InvalidProduct ∨
   (add_to_cart cart_list pid qty).1 = InvalidQuantity) ∧
  ∃ r cart',
    remove_from_cart cart_list pid qty = Some (r, cart') ∧
    (r = Success ↔ (∃ x, x ∈ cart_list ∧ product_id x = pid) ∧ 1 ≤ qty).
Proof.
  split_and!.
  - rewrite <- in_catalog_ids.
    destruct (decide (in_catalog pid)) as [Hpid|Hpid].
    2: { rewrite add_to_cart_invalid_product by done. simpl. by split; [|intros [??]]. }
    destruct (decide (qty ≤ 0)) as [Hqty|Hqty].
    { rewrite add_to_cart_invalid_quantity by done. simpl.
      split; [done|]. intros [_ ?]. lia. }
    rewrite add_to_cart_valid by (done || lia).
    destruct (find_cart_item cart_list pid) as [[??]|]; simpl; (split; [|done]);
      intros _; split; (done || lia).
  - destruct (decide (in_catalog pid)) as [Hpid|Hpid].
    2: { rewrite add_to_cart_invalid_product by done. auto. }
    destruct (decide (qty ≤ 0)) as [Hqty|Hqty].
    { rewrite add_to_cart_invalid_quantity by done. auto. }
    rewrite add_to_cart_valid by (done || lia).
    destruct (find_cart_item cart_list pid) as [[??]|]; auto.
  - destruct (cart_cases cart_list pid) as [Hno|(l1 & x & l2 & -> & Hx & Hl1)].
    { rewrite remove_from_cart_not_found by done. do 2 eexists. split; [done|].
      split; [done|]. intros [Hsome _]. by apply no_line_exists in Hno. }
    assert (∃ y, y ∈ l1 ++ x :: l2 ∧ product_id y = pid) as Hline.
    { exists x. split; [|done]. apply elem_of_app. right. apply list_elem_of_here. }
    destruct (decide (qty ≤ 0)) as [Hqty|Hqty].
    { rewrite remove_from_cart_invalid_quantity by done. do 2 eexists. split; [done|].
      split; [done|]. intros [_ ?]. lia. }
    destruct (decide (quantity x ≤ qty)).
    + rewrite remove_from_cart_delete by (done || lia). do 2 eexists. split; [done|].
      split; [|done]. intros _. split; [done|lia].
    + rewrite remove_from_cart_decrement by (done || lia). do 2 eexists. split; [done|].
      split; [|done]. intros _. split; [done|lia].
Qed.

(** ** The rows of a well-formed cart *)

(** X18.  On a cart whose lines all have a catalog id and a positive
    quantity, [view_cart] skips nothing: its rows carry the ids and the
    quantities of the lines, in order, so the rows are empty exactly when
    the cart is. *)
Theorem view_cart_complete (cart_list : list CartLine) :
  cart_inv cart_list →
  detail_product_id <$> view_cart cart_list = product_id <$> cart_list ∧
  detail_quantity <$> view_cart cart_list = quantity <$> cart_list ∧
  (view_cart cart_list = [] ↔ cart_list = []).
Proof.
  intros Hinv.
  assert (detail_product_id <$> view_cart cart_list = product_id <$> cart_list ∧
          detail_quantity <$> view_cart cart_list = quantity <$> cart_list) as [Hids Hqtys].
  { rewrite view_cart_omap.
    induction Hinv as [|item l [[prod Hprod]%in_catalog_get _] _ [IHids IHqtys]]; [done|].
    assert (resolved_detail item = Some (line_detail item prod)) as Hdetail.
    { unfold resolved_detail. by rewrite Hprod. }
    rewrite omap_cons_unfold, Hdetail, !fmap_cons. by rewrite IHids, IHqtys. }
  split_and!; [done..|]. split.
  - intros Hnil. rewrite Hnil in Hids. symmetry in Hids. by apply fmap_nil_inv in Hids.
  - by intros ->.
Qed.

Lemma view_cart_complete_witness :
  detail_product_id <$> view_cart [ {| product_id := 3; quantity := 2 |};
                                    {| product_id := 1; quantity := 1 |} ]
  = [3; 1].
Proof.
  refine (proj1 (view_cart_complete [ {| product_id := 3; quantity := 2 |};
                                      {| product_id := 1; quantity := 1 |} ] _)).
  unfold cart_inv, line_ok. repeat constructor; simpl; lia.
Defined.
